(** * go_news_rss: the ingestion pipeline and the read API of [main.go]

    A shallow embedding of [main.go]: the configuration record, the RSS
    structures with their XML tags, the [rss] table created by [initDB],
    [insertItem], [fetchRSS], [pollFeeds] and [apiHandler], together with
    the parts of the Go runtime and of SQLite these functions rely on
    ([strconv.Atoi], [time.NewTicker], the struct decoding of
    [encoding/xml], column affinity, ORDER BY and LIMIT).

    Standing assumptions: [int] is 64 bits wide; once the table exists the
    two SQL statements run without an I/O failure; the rows of the table
    are those [insertItem] wrote, so no cell is NULL. *)

From Stdlib Require Import ZArith List String Ascii Bool Lia.
From Stdlib Require Import Sorted Permutation DecimalString DecimalPos.
Import ListNotations.
Open Scope string_scope.
Open Scope Z_scope.

(** ** Results of fallible calls: Go's [(value, error)] pairs *)

Inductive Result (E A : Type) : Type :=
| Ok (a : A)
| Err (e : E).
Arguments Ok {E A} a.
Arguments Err {E A} e.

(** A Go slice is either [nil] or a (possibly empty) sequence; the two are
    told apart by [encoding/json]. *)
Inductive GoSlice (A : Type) : Type :=
| NilSlice
| Slice (elems : list A).
Arguments NilSlice {A}.
Arguments Slice {A} elems.

Definition append {A : Type} (s : GoSlice A) (x : A) : GoSlice A :=
  match s with
  | NilSlice => Slice [x]
  | Slice l => Slice (l ++ [x])
  end.

(** ** Machine integers and [strconv] *)

Module GoInt.

Definition minInt64 : Z := - 2 ^ 63.
Definition maxInt64 : Z := 2 ^ 63 - 1.

(** Two's complement wrap-around of [int64] arithmetic. *)
Definition wrap64 (z : Z) : Z := (z + 2 ^ 63) mod 2 ^ 64 - 2 ^ 63.

Definition mul64 (a b : Z) : Z := wrap64 (a * b).

End GoInt.

Module Strconv.

Inductive NumError : Type := ErrSyntax | ErrRange.

Definition isDigit (c : ascii) : bool :=
  let n := N_of_ascii c in (48 <=? n)%N && (n <=? 57)%N.

Definition digitVal (c : ascii) : Z := Z.of_N (N_of_ascii c) - 48.

(** The digit loop [n = n*10 + int(ch)]. *)
Fixpoint parseDigits (s : string) (acc : Z) : option Z :=
  match s with
  | EmptyString => Some acc
  | String c r =>
      if isDigit c then parseDigits r (acc * 10 + digitVal c) else None
  end.

Definition isSign (c : ascii) : bool :=
  Ascii.eqb c "-"%char || Ascii.eqb c "+"%char.

(** [strconv.Atoi] on a 64-bit platform: an optional sign, then one or
    more decimal digits, the value within [int] range. *)
Definition Atoi (s : string) : Result NumError Z :=
  match s with
  | EmptyString => Err ErrSyntax
  | String c r =>
      let digits := if isSign c then r else s in
      match digits with
      | EmptyString => Err ErrSyntax
      | _ =>
          match parseDigits digits 0 with
          | None => Err ErrSyntax
          | Some n =>
              if Ascii.eqb c "-"%char
              then (if n <=? 2 ^ 63 then Ok (- n) else Err ErrRange)
              else (if n <=? GoInt.maxInt64 then Ok n else Err ErrRange)
          end
      end
  end.

(** [strconv.FormatInt(z, 10)]. *)
Definition FormatInt (z : Z) : string :=
  NilZero.string_of_int (Z.to_int z).

End Strconv.

(** ** The structures of [main.go] *)

Record Config : Type := {
  Feeds : list string;
  Period : Z
}.

Record Item : Type := {
  Title : string;
  Description : string;
  Link : string;
  PubDate : string
}.

Record Channel : Type := {
  Items : list Item
}.

Record RSS : Type := {
  channel : Channel
}.

Definition zeroItem : Item :=
  {| Title := ""; Description := ""; Link := ""; PubDate := "" |}.

Definition zeroRSS : RSS := {| channel := {| Items := [] |} |}.

(** ** [encoding/xml]: decoding an element tree into [RSS]

    The tokenizer is not modelled; a document is the tree of its elements
    and character data.  The decoding below is what [xml.Unmarshal] does
    for the tags of [RSS] and [Item]: a field tagged with a bare name
    matches a child element by its local name only, a slice field gains
    one element per matching child, a string field is set to the
    character data directly inside the matching child and a later match
    overwrites an earlier one.  [RSS] has no [XMLName] field, so the
    name of the root element is not checked. *)

Module Xml.

Record Name : Type := { Space : string; Local : string }.

#[warnings="-register-all"]
Inductive Node : Type :=
| Element (name : Name) (content : list Node)
| CharData (data : string).

Definition plain (local : string) : Name :=
  {| Space := ""; Local := local |}.

(** Character data directly inside an element; nested elements are
    skipped. *)
Fixpoint charData (content : list Node) : string :=
  match content with
  | [] => ""
  | CharData d :: rest => d ++ charData rest
  | Element _ _ :: rest => charData rest
  end.

Definition setField (it : Item) (n : Node) : Item :=
  match n with
  | CharData _ => it
  | Element nm c =>
      if String.eqb (Local nm) "title" then
        {| Title := charData c; Description := Description it;
           Link := Link it; PubDate := PubDate it |}
      else if String.eqb (Local nm) "description" then
        {| Title := Title it; Description := charData c;
           Link := Link it; PubDate := PubDate it |}
      else if String.eqb (Local nm) "link" then
        {| Title := Title it; Description := Description it;
           Link := charData c; PubDate := PubDate it |}
      else if String.eqb (Local nm) "pubDate" then
        {| Title := Title it; Description := Description it;
           Link := Link it; PubDate := charData c |}
      else it
  end.

Definition unmarshalItem (content : list Node) : Item :=
  fold_left setField content zeroItem.

Definition addItem (ch : Channel) (n : Node) : Channel :=
  match n with
  | CharData _ => ch
  | Element nm c =>
      if String.eqb (Local nm) "item"
      then {| Items := Items ch ++ [unmarshalItem c] |}
      else ch
  end.

Definition unmarshalChannel (content : list Node) (ch : Channel) : Channel :=
  fold_left addItem content ch.

Definition addChannel (r : RSS) (n : Node) : RSS :=
  match n with
  | CharData _ => r
  | Element nm c =>
      if String.eqb (Local nm) "channel"
      then {| channel := unmarshalChannel c (channel r) |}
      else r
  end.

(** A document: its root element. *)
Record Document : Type := { RootName : Name; RootContent : list Node }.

Definition unmarshalRSS (doc : Document) : RSS :=
  fold_left addChannel (RootContent doc) zeroRSS.

(** The document's view of the same data, used to state what the
    decoding yields: the [item] elements under the [channel] elements
    of the root, in document order. *)
Definition isElement (local : string) (n : Node) : bool :=
  match n with
  | Element nm _ => String.eqb (Local nm) local
  | CharData _ => false
  end.

Definition contentOf (n : Node) : list Node :=
  match n with
  | Element _ c => c
  | CharData _ => []
  end.

Definition itemElements (doc : Document) : list Node :=
  flat_map (fun ch => filter (isElement "item") (contentOf ch))
           (filter (isElement "channel") (RootContent doc)).

Definition hasChild (local : string) (n : Node) : bool :=
  existsb (isElement local) (contentOf n).

End Xml.

(** ** SQLite: the [rss] table, column affinity, ORDER BY and LIMIT

    A column's affinity follows from its declared type by SQLite's rule
    (the first of: contains INT; contains CHAR, CLOB or TEXT; contains
    BLOB or is empty; contains REAL, FLOA or DOUB; otherwise NUMERIC).
    A text stored into a column of NUMERIC affinity is converted to an
    integer when it is a well-formed integer literal that fits 64 bits.
    Values of the REAL storage class (a text with a fraction or an
    exponent stored into a NUMERIC column) are not modelled: such a text
    is kept as it is here, and the statements below that speak of text
    exclude every text that starts like a number ([looksNumeric]). *)

Module Sqlite.

Inductive Value : Type :=
| VInteger (z : Z)
| VText (s : string).

Inductive Affinity : Type :=
| AffInteger | AffText | AffBlob | AffReal | AffNumeric.

Fixpoint contains (needle hay : string) : bool :=
  prefix needle hay ||
  match hay with
  | EmptyString => false
  | String _ rest => contains needle rest
  end.

Definition affinityOf (declType : string) : Affinity :=
  if contains "INT" declType then AffInteger
  else if contains "CHAR" declType || contains "CLOB" declType
          || contains "TEXT" declType then AffText
  else if contains "BLOB" declType || String.eqb declType "" then AffBlob
  else if contains "REAL" declType || contains "FLOA" declType
          || contains "DOUB" declType then AffReal
  else AffNumeric.

Definition isSpace (c : ascii) : bool :=
  let n := N_of_ascii c in (n =? 32)%N || ((9 <=? n)%N && (n <=? 13)%N).

Fixpoint skipSpaces (s : string) : string :=
  match s with
  | EmptyString => EmptyString
  | String c r => if isSpace c then skipSpaces r else s
  end.

Fixpoint allSpaces (s : string) : bool :=
  match s with
  | EmptyString => true
  | String c r => isSpace c && allSpaces r
  end.

(** Digits followed by optional trailing white space. *)
Fixpoint digitsValue (s : string) (acc : Z) : option Z :=
  match s with
  | EmptyString => Some acc
  | String c r =>
      if Strconv.isDigit c then digitsValue r (acc * 10 + Strconv.digitVal c)
      else if allSpaces s then Some acc else None
  end.

Definition startsWithDigit (s : string) : bool :=
  match s with
  | EmptyString => false
  | String c _ => Strconv.isDigit c
  end.

(** The value of a well-formed integer literal that fits [int64]. *)
Definition integerLiteral (s : string) : option Z :=
  let body := skipSpaces s in
  let neg := match body with String c _ => Ascii.eqb c "-"%char | _ => false end in
  let digits :=
    match body with
    | String c r => if Strconv.isSign c then r else body
    | EmptyString => body
    end in
  if startsWithDigit digits then
    match digitsValue digits 0 with
    | Some n =>
        let v := if neg then - n else n in
        if (GoInt.minInt64 <=? v) && (v <=? GoInt.maxInt64) then Some v else None
    | None => None
    end
  else None.


(** What a column of the given affinity keeps of a bound text. *)
Definition store (a : Affinity) (s : string) : Value :=
  match a with
  | AffText | AffBlob => VText s
  | AffInteger | AffReal | AffNumeric =>
      match integerLiteral s with
      | Some z => VInteger z
      | None => VText s
      end
  end.

(** Comparison used by ORDER BY: numbers sort before every text,
    numbers by value, texts by their bytes (BINARY collation). *)
Definition compare (a b : Value) : comparison :=
  match a, b with
  | VInteger x, VInteger y => Z.compare x y
  | VInteger _, VText _ => Lt
  | VText _, VInteger _ => Gt
  | VText s, VText t => String.compare s t
  end.

Definition ltb (a b : Value) : bool :=
  match compare a b with Lt => true | _ => false end.

(** [a] does not sort after [b]. *)
Definition le (a b : Value) : Prop := compare a b <> Gt.

(** [rows.Scan] into a [*string]: a text as it is, an integer in
    decimal.  (A driver may hand over a text cell of a DATETIME column
    that has the form of a timestamp as a time value, which [Scan] renders
    in RFC 3339 form; such a text starts with a digit, and the statements
    on the text read back exclude it with [looksNumeric].) *)
Definition columnString (v : Value) : string :=
  match v with
  | VText s => s
  | VInteger z => Strconv.FormatInt z
  end.

(** The columns of [createTableSQL] with their declared types. *)
Definition createTableSQL : list (string * string) :=
  [ ("id", "INTEGER"); ("title", "TEXT"); ("description", "TEXT");
    ("link", "TEXT"); ("pubDate", "DATETIME") ].

Definition declType (column : string) : string :=
  match find (fun c => String.eqb (fst c) column) createTableSQL with
  | Some c => snd c
  | None => ""
  end.

Definition columnAffinity (column : string) : Affinity :=
  affinityOf (declType column).

Record Row : Type := {
  id : Z;
  title : Value;
  description : Value;
  link : Value;
  pubDate : Value
}.

(** The table and its AUTOINCREMENT counter. *)
Record Table : Type := {
  rows : list Row;
  lastId : Z
}.

Definition emptyTable : Table := {| rows := []; lastId := 0 |}.

(** INSERT INTO rss (title, description, link, pubDate) VALUES (?, ?, ?, ?) *)
Definition insertRow (t : Table) (ttl desc lnk pd : string) : Table :=
  let i := lastId t + 1 in
  {| rows := rows t ++
       [ {| id := i;
            title := store (columnAffinity "title") ttl;
            description := store (columnAffinity "description") desc;
            link := store (columnAffinity "link") lnk;
            pubDate := store (columnAffinity "pubDate") pd |} ];
     lastId := i |}.

(** ORDER BY pubDate DESC: larger keys first.  Rows with equal keys
    keep their table order; SQLite leaves the order of ties open and no
    statement below depends on it. *)
Fixpoint insertDesc (r : Row) (sorted : list Row) : list Row :=
  match sorted with
  | [] => [r]
  | x :: xs =>
      if ltb (pubDate r) (pubDate x) then x :: insertDesc r xs
      else r :: x :: xs
  end.

Definition orderByPubDateDesc (rs : list Row) : list Row :=
  fold_right insertDesc [] rs.

(** LIMIT n: a negative limit is no limit. *)
Definition limitRows (n : Z) (rs : list Row) : list Row :=
  if n <? 0 then rs else firstn (Z.to_nat n) rs.

(** SELECT title, description, link, pubDate FROM rss
    ORDER BY pubDate DESC LIMIT ? *)
Definition selectRecent (n : Z) (t : Table) : list Row :=
  limitRows n (orderByPubDateDesc (rows t)).

(** A row without its id. *)
Definition Cells : Type := (Value * Value * Value * Value)%type.

Definition cells (r : Row) : Cells :=
  (title r, description r, link r, pubDate r).



End Sqlite.

(** ** The process state: the database handle and what the process did

    [db] is the [rss] table behind the global handle ([None] while the
    table does not exist); [trace] lists, oldest first, the observable
    actions: requests sent, lines logged, statements executed. *)

Inductive Event : Type :=
| EvGet (url : string)
| EvLog (msg : string)
| EvExec (item : Item)
| EvQuery (limit : Z).

Record World : Type := {
  db : option Sqlite.Table;
  trace : list Event
}.

Definition record (e : Event) (w : World) : World :=
  {| db := db w; trace := trace w ++ [e] |}.

Definition noSuchTable : string := "no such table: rss".

(** [initDB]: CREATE TABLE IF NOT EXISTS. *)
Definition initDB (w : World) : World :=
  match db w with
  | Some _ => w
  | None => {| db := Some Sqlite.emptyTable; trace := trace w |}
  end.

(** [db.Exec(insertSQL, item.Title, item.Description, item.Link,
    item.PubDate)]: the new world and the error, if any. *)
Definition dbExec (item : Item) (w : World) : World * option string :=
  match db w with
  | None => (record (EvExec item) w, Some noSuchTable)
  | Some t =>
      (record (EvExec item)
         {| db := Some (Sqlite.insertRow t (Title item) (Description item)
                                          (Link item) (PubDate item));
            trace := trace w |},
       None)
  end.

Definition insertItem (item : Item) (w : World) : World :=
  match dbExec item w with
  | (w', Some err) => record (EvLog ("Error inserting item: " ++ err)) w'
  | (w', None) => w'
  end.

(** [db.Query(`SELECT ... ORDER BY pubDate DESC LIMIT ?`, count)]. *)
Definition dbQuery (count : Z) (w : World)
  : World * Result string (list Sqlite.Row) :=
  match db w with
  | None => (record (EvQuery count) w, Err noSuchTable)
  | Some t => (record (EvQuery count) w, Ok (Sqlite.selectRecent count t))
  end.

(** [rows.Scan(&item.Title, &item.Description, &item.Link, &item.PubDate)]. *)
Definition scanRow (r : Sqlite.Row) : Item :=
  {| Title := Sqlite.columnString (Sqlite.title r);
     Description := Sqlite.columnString (Sqlite.description r);
     Link := Sqlite.columnString (Sqlite.link r);
     PubDate := Sqlite.columnString (Sqlite.pubDate r) |}.

(** ** The network as [http.Get] sees it *)

Record Response : Type := {
  StatusCode : Z;
  Body : Result string string   (* what [ioutil.ReadAll(resp.Body)] returns *)
}.

Definition Network : Type := string -> Result string Response.

(** ** [fetchRSS]

    A goroutine running [fetchRSS] performs a sequence of atomic actions
    on the shared state; the goroutines of one poll cycle interleave. *)

Inductive Action : Type :=
| Get (url : string)
| Log (msg : string)
| Insert (item : Item).

Definition perform (a : Action) (w : World) : World :=
  match a with
  | Get url => record (EvGet url) w
  | Log msg => record (EvLog msg) w
  | Insert item => insertItem item w
  end.

Definition run (acts : list Action) (w : World) : World :=
  fold_left (fun w a => perform a w) acts w.

Section Fetch.

(** The tokenizer of [encoding/xml]: a document tree, or the error
    [xml.Unmarshal] reports for bytes that are not well-formed. *)
Variable xmlParse : string -> Result string Xml.Document.

Definition xmlUnmarshal (body : string) : Result string RSS :=
  match xmlParse body with
  | Err e => Err e
  | Ok doc => Ok (Xml.unmarshalRSS doc)
  end.

Definition fetchRSS (net : Network) (url : string) : list Action :=
  Get url ::
  match net url with
  | Err e => [Log ("Error fetching URL " ++ url ++ ": " ++ e)]
  | Ok resp =>
      match Body resp with
      | Err e => [Log ("Error reading response body: " ++ e)]
      | Ok body =>
          match xmlUnmarshal body with
          | Err e => [Log ("Error unmarshalling XML: " ++ e)]
          | Ok rss => map Insert (Items (channel rss))
          end
      end
  end.

(** The entries a fetch hands to [insertItem]. *)
Definition inserted (acts : list Action) : list Item :=
  flat_map (fun a => match a with Insert it => [it] | _ => [] end) acts.

Definition logged (acts : list Action) : list string :=
  flat_map (fun a => match a with Log m => [m] | _ => [] end) acts.

(** ** [pollFeeds] *)

Definition replaceNth {A : Type} (i : nat) (x : A) (l : list A) : list A :=
  firstn i l ++ x :: skipn (S i) l.

(** The runtime's choice of which goroutine moves next; when the
    schedule is used up the remaining goroutines finish in order
    ([wg.Wait] returns only after all of them are done). *)
Fixpoint interleave {A : Type} (sched : list nat) (threads : list (list A))
  : list A :=
  match sched with
  | [] => List.concat threads
  | i :: sched' =>
      match nth_error threads i with
      | Some (a :: rest) => a :: interleave sched' (replaceNth i rest threads)
      | _ => interleave sched' threads
      end
  end.

(** What one tick of the ticker meets: the network at that moment and
    the schedule of the goroutines it starts. *)
Record Tick : Type := {
  net : Network;
  sched : list nat
}.

Definition pollCycle (feeds : list string) (t : Tick) (w : World) : World :=
  run (interleave (sched t) (map (fetchRSS (net t)) feeds)) w.

(** [time.Minute], in nanoseconds. *)
Definition Minute : Z := 60 * 1000000000.

(** [time.Duration(config.Period) * time.Minute]. *)
Definition tickerInterval (config : Config) : Z :=
  GoInt.mul64 (Period config) Minute.

Inductive Outcome : Type :=
| Panicked (msg : string)
| Polling (w : World).

(** [pollFeeds] after the ticker has delivered [ticks]: [time.NewTicker]
    panics on a non-positive interval, otherwise each tick runs one
    cycle. *)
Definition pollFeeds (config : Config) (ticks : list Tick) (w : World)
  : Outcome :=
  if tickerInterval config <=? 0
  then Panicked "non-positive interval for NewTicker"
  else Polling (fold_left (fun w t => pollCycle (Feeds config) t w) ticks w).



End Fetch.

(** ** [apiHandler] *)

(** What the handler writes: a plain text, or the JSON encoding of the
    items handed to [json.NewEncoder(w).Encode]. *)
Inductive Output : Type :=
| Plain (text : string)
| Json (items : GoSlice Item).

Record HttpResponse : Type := {
  Status : Z;
  Header : list (string * string);
  Payload : Output
}.

Definition newline : string := String (ascii_of_nat 10) EmptyString.
Definition dquote : string := String (ascii_of_nat 34) EmptyString.

Definition StatusOK : Z := 200.
Definition StatusBadRequest : Z := 400.
Definition StatusInternalServerError : Z := 500.

(** [http.Error(w, msg, code)]. *)
Definition httpError (msg : string) (code : Z) : HttpResponse :=
  {| Status := code;
     Header := [ ("Content-Type", "text/plain; charset=utf-8");
                 ("X-Content-Type-Options", "nosniff") ];
     Payload := Plain (msg ++ newline) |}.

Definition jsonResponse (items : GoSlice Item) : HttpResponse :=
  {| Status := StatusOK;
     Header := [ ("Content-Type", "application/json") ];
     Payload := Json items |}.

(** [count] is [mux.Vars(r)["count"]].  [rows.Scan] into strings cannot
    fail on the cells [insertItem] writes, so the loop has no error exit
    here. *)
Definition apiHandler (count : string) (w : World) : HttpResponse * World :=
  match Strconv.Atoi count with
  | Err _ => (httpError "Invalid count parameter" StatusBadRequest, w)
  | Ok n =>
      match dbQuery n w with
      | (w', Err e) => (httpError e StatusInternalServerError, w')
      | (w', Ok rows) =>
          (jsonResponse (fold_left (fun items r => append items (scanRow r))
                                   rows (Slice [])),
           w')
      end
  end.

(** The bytes written for an output. *)
Section Json.

(** The string quoting of [encoding/json]. *)
Variable jsonQuote : string -> string.

Definition jsonField (key value : string) : string :=
  dquote ++ key ++ dquote ++ ":" ++ jsonQuote value.

(** [Item] has no json tags: the keys are the field names. *)
Definition encodeItem (it : Item) : string :=
  "{" ++ jsonField "Title" (Title it) ++ ","
      ++ jsonField "Description" (Description it) ++ ","
      ++ jsonField "Link" (Link it) ++ ","
      ++ jsonField "PubDate" (PubDate it) ++ "}".

Definition jsonEncode (items : GoSlice Item) : string :=
  match items with
  | NilSlice => "null" ++ newline
  | Slice l => "[" ++ String.concat "," (map encodeItem l) ++ "]" ++ newline
  end.

Definition outputBytes (b : Output) : string :=
  match b with
  | Plain text => text
  | Json items => jsonEncode items
  end.

End Json.

(** ** Orders and counts used in the statements *)


(** Descending under SQLite's comparison of the stored [pubDate]. *)
Definition storedDescending (rs : list Sqlite.Row) : Prop :=
  StronglySorted (fun a b => Sqlite.le (Sqlite.pubDate b) (Sqlite.pubDate a)) rs.



(** The table after a sequence of successful inserts, and the event each
    action leaves in the trace when the table exists. *)
Definition insertAll (items : list Item) (t : Sqlite.Table) : Sqlite.Table :=
  fold_left (fun t it => Sqlite.insertRow t (Title it) (Description it)
                                          (Link it) (PubDate it))
            items t.

Definition eventOf (a : Action) : Event :=
  match a with
  | Get url => EvGet url
  | Log msg => EvLog msg
  | Insert item => EvExec item
  end.

(** What the feeds of a configuration yield on a given network. *)
Definition payloadOf (xmlParse : string -> Result string Xml.Document)
                     (network : Network) (feeds : list string) : list Item :=
  flat_map (fun u => inserted (fetchRSS xmlParse network u)) feeds.

(** ** Sample data *)

Definition entry (ttl pd : string) : Item :=
  {| Title := ttl; Description := "d"; Link := "http://example.org/" ++ ttl;
     PubDate := pd |}.

Definition startWorld : World := initDB {| db := None; trace := [] |}.

Definition tableWorld (t : Sqlite.Table) (tr : list Event) : World :=
  {| db := Some t; trace := tr |}.

(** The cells [insertItem] binds for an item, and how many rows of a
    table hold exactly these cells. *)
Definition itemCells (item : Item) : Sqlite.Cells :=
  (Sqlite.store (Sqlite.columnAffinity "title") (Title item),
   Sqlite.store (Sqlite.columnAffinity "description") (Description item),
   Sqlite.store (Sqlite.columnAffinity "link") (Link item),
   Sqlite.store (Sqlite.columnAffinity "pubDate") (PubDate item)).



Definition numericDates : World :=
  run [Insert (entry "a" "9"); Insert (entry "b" "10")] startWorld.

Definition rfc822Dates : Sqlite.Table :=
  Sqlite.insertRow
    (Sqlite.insertRow Sqlite.emptyTable "a" "d" "l" "Mon, 02 Jan 2006 15:04:05 MST")
    "b" "d" "l" "Tue, 03 Jan 2006 15:04:05 MST".

Definition textElement (name text : string) : Xml.Node :=
  Xml.Element (Xml.plain name) [Xml.CharData text].

Definition itemElement (fields : list (string * string)) : Xml.Node :=
  Xml.Element (Xml.plain "item")
              (map (fun f => textElement (fst f) (snd f)) fields).

(** Three complete items and one without a title. *)
Definition fourItems : Xml.Document :=
  {| Xml.RootName := Xml.plain "rss";
     Xml.RootContent :=
       [ Xml.Element (Xml.plain "channel")
           [ textElement "title" "News";
             itemElement [("title", "one"); ("description", "d1");
                          ("link", "l1"); ("pubDate", "Mon, 02 Jan 2006 15:04:05 MST")];
             itemElement [("title", "two"); ("description", "d2");
                          ("link", "l2"); ("pubDate", "Tue, 03 Jan 2006 15:04:05 MST")];
             itemElement [("title", "three"); ("description", "d3");
                          ("link", "l3"); ("pubDate", "Wed, 04 Jan 2006 15:04:05 MST")];
             itemElement [("description", "d4");
                          ("link", "l4"); ("pubDate", "Thu, 05 Jan 2006 15:04:05 MST")] ] ] |}.

Definition fourItemsBody : string :=
  "<rss><channel><title>News</title>" ++
  "<item><title>one</title><description>d1</description><link>l1</link><pubDate>Mon, 02 Jan 2006 15:04:05 MST</pubDate></item>" ++
  "<item><title>two</title><description>d2</description><link>l2</link><pubDate>Tue, 03 Jan 2006 15:04:05 MST</pubDate></item>" ++
  "<item><title>three</title><description>d3</description><link>l3</link><pubDate>Wed, 04 Jan 2006 15:04:05 MST</pubDate></item>" ++
  "<item><description>d4</description><link>l4</link><pubDate>Thu, 05 Jan 2006 15:04:05 MST</pubDate></item>" ++
  "</channel></rss>".

(** A tokenizer that knows the sample payload only. *)
Definition sampleParse (body : string) : Result string Xml.Document :=
  if String.eqb body fourItemsBody then Ok fourItems
  else Err "XML syntax error on line 1: unexpected EOF".

Definition goodFeed : string := "http://feed.example/rss".
Definition brokenFeed : string := "http://broken.example/rss".
Definition missingFeed : string := "http://feed.example/gone".

(** A network on which [goodFeed] serves the sample payload,
    [brokenFeed] serves a truncated one, [missingFeed] serves the sample
    payload under status 404, and nothing else answers. *)
Definition sampleNet : Network :=
  fun url =>
    if String.eqb url goodFeed
    then Ok {| StatusCode := 200; Body := Ok fourItemsBody |}
    else if String.eqb url brokenFeed
    then Ok {| StatusCode := 200; Body := Ok "<rss><channel>" |}
    else if String.eqb url missingFeed
    then Ok {| StatusCode := 404; Body := Ok fourItemsBody |}
    else Err "dial tcp: connection refused".

Definition sampleTick : Tick := {| net := sampleNet; sched := [1; 0; 0; 1]%nat |}.

Definition everyMinute (feeds : list string) : Config :=
  {| Feeds := feeds; Period := 1 |}.

Definition twoFeeds : Config := everyMinute [goodFeed; brokenFeed].

(** ** Further notions used in the statements *)

(** The addresses a sequence of actions requests, and the requests a trace
    records. *)
Definition requested (acts : list Action) : list string :=
  flat_map (fun a => match a with Get u => [u] | _ => [] end) acts.

Definition requests (tr : list Event) : list string :=
  flat_map (fun e => match e with EvGet u => [u] | _ => [] end) tr.



(** The ids of a table grow along its rows and none exceeds the
    AUTOINCREMENT counter. *)
Definition ascendingIds (t : Sqlite.Table) : Prop :=
  StronglySorted Z.lt (map Sqlite.id (Sqlite.rows t)) /\
  Forall (fun r => Sqlite.id r <= Sqlite.lastId t) (Sqlite.rows t).

(** The items a response carries, when it carries any. *)
Definition itemsOf (resp : HttpResponse) : option (list Item) :=
  match Payload resp with
  | Json (Slice its) => Some its
  | _ => None
  end.

Definition inInt64 (z : Z) : Prop := GoInt.minInt64 <= z <= GoInt.maxInt64.

(** A feed of another vocabulary: no [channel], entries instead of items. *)
Definition atomDoc : Xml.Document :=
  {| Xml.RootName := {| Xml.Space := "http://www.w3.org/2005/Atom";
                        Xml.Local := "feed" |};
     Xml.RootContent :=
       [ textElement "title" "News";
         Xml.Element (Xml.plain "entry") [textElement "title" "one"] ] |}.

Definition atomBody : string :=
  "<feed><title>News</title><entry><title>one</title></entry></feed>".

Definition atomParse (body : string) : Result string Xml.Document :=
  if String.eqb body atomBody then Ok atomDoc else sampleParse body.

Definition atomNet : Network :=
  fun _ => Ok {| StatusCode := 200; Body := Ok atomBody |}.

(** * Properties *)

(** ** The order of stored values *)

Lemma ascii_compare_lt_trans (a b c : ascii) :
  Ascii.compare a b = Lt -> Ascii.compare b c = Lt -> Ascii.compare a c = Lt.
Proof.
  unfold Ascii.compare. rewrite !N.compare_lt_iff. lia.
Qed.

Lemma string_compare_lt_trans (a b c : string) :
  String.compare a b = Lt -> String.compare b c = Lt -> String.compare a c = Lt.
Proof.
  revert b c.
  induction a as [|x a IH]; intros [|y b] [|z c]; simpl; try congruence.
  destruct (Ascii.compare x y) eqn:Hxy; try discriminate;
    destruct (Ascii.compare y z) eqn:Hyz; try discriminate; intros H1 H2.
  - apply Ascii.compare_eq_iff in Hxy, Hyz. subst.
    assert (Hzz : Ascii.compare z z = Eq)
      by (unfold Ascii.compare; apply N.compare_refl).
    rewrite Hzz. eauto.
  - apply Ascii.compare_eq_iff in Hxy. subst. now rewrite Hyz.
  - apply Ascii.compare_eq_iff in Hyz. subst. now rewrite Hxy.
  - now rewrite (ascii_compare_lt_trans _ _ _ Hxy Hyz).
Qed.

Module SqliteFacts.
Import Sqlite.

Lemma compare_antisym (a b : Value) : compare a b = CompOpp (compare b a).
Proof.
  destruct a, b; simpl; auto using Z.compare_antisym, String.compare_antisym.
Qed.

Lemma compare_eq (a b : Value) : compare a b = Eq -> a = b.
Proof.
  destruct a, b; simpl; try discriminate; intros H.
  - apply Z.compare_eq in H. congruence.
  - apply String.compare_eq_iff in H. congruence.
Qed.

Lemma compare_lt_trans (a b c : Value) :
  compare a b = Lt -> compare b c = Lt -> compare a c = Lt.
Proof.
  destruct a, b, c; simpl; try congruence.
  - rewrite !Z.compare_lt_iff. lia.
  - apply string_compare_lt_trans.
Qed.

Lemma le_trans (a b c : Value) : le a b -> le b c -> le a c.
Proof.
  unfold le. intros Hab Hbc.
  destruct (compare a b) eqn:E1; try congruence.
  - apply compare_eq in E1. now subst.
  - destruct (compare b c) eqn:E2; try congruence.
    + apply compare_eq in E2. subst. congruence.
    + rewrite (compare_lt_trans _ _ _ E1 E2). discriminate.
Qed.

Lemma ltb_le (a b : Value) : ltb a b = true -> le a b.
Proof.
  unfold ltb, le. destruct (compare a b); congruence.
Qed.

Lemma not_ltb_le (a b : Value) : ltb a b = false -> le b a.
Proof.
  unfold ltb, le. rewrite (compare_antisym b a).
  destruct (compare a b); simpl; congruence.
Qed.

(** *** ORDER BY is a sorted rearrangement of the rows *)

Lemma insertDesc_perm (r : Row) (l : list Row) :
  Permutation (insertDesc r l) (r :: l).
Proof.
  induction l as [|x xs IH]; simpl; auto.
  destruct (ltb (pubDate r) (pubDate x)); auto.
  rewrite IH. apply perm_swap.
Qed.

Lemma orderBy_perm (rs : list Row) : Permutation (orderByPubDateDesc rs) rs.
Proof.
  induction rs as [|r rs IH]; simpl; auto.
  rewrite insertDesc_perm. now constructor.
Qed.

Lemma insertDesc_sorted (r : Row) (l : list Row) :
  storedDescending l -> storedDescending (insertDesc r l).
Proof.
  unfold storedDescending.
  induction 1 as [|x xs Hs IH Hall]; simpl.
  - repeat constructor.
  - destruct (ltb (pubDate r) (pubDate x)) eqn:E.
    + constructor; auto.
      eapply Permutation_Forall; [symmetry; apply insertDesc_perm|].
      constructor; auto using ltb_le.
    + constructor; [constructor; auto|].
      constructor; [now apply not_ltb_le|].
      eapply Forall_impl; [|exact Hall].
      intros y Hy. simpl in Hy.
      eapply le_trans; [exact Hy|now apply not_ltb_le].
Qed.

Lemma orderBy_sorted (rs : list Row) : storedDescending (orderByPubDateDesc rs).
Proof.
  induction rs as [|r rs IH]; simpl.
  - constructor.
  - now apply insertDesc_sorted.
Qed.



End SqliteFacts.

(** ** The read path *)

Lemma scan_loop (rows : list Sqlite.Row) (l : list Item) :
  fold_left (fun items r => append items (scanRow r)) rows (Slice l)
  = Slice (l ++ map scanRow rows).
Proof.
  revert l. induction rows as [|r rows IH]; intros l; simpl.
  - now rewrite app_nil_r.
  - rewrite IH. now rewrite <- app_assoc.
Qed.

Lemma apiHandler_ok (t : Sqlite.Table) (tr : list Event) (count : string) (n : Z) :
  Strconv.Atoi count = Ok n ->
  apiHandler count (tableWorld t tr)
  = (jsonResponse (Slice (map scanRow (Sqlite.selectRecent n t))),
     tableWorld t (tr ++ [EvQuery n])).
Proof.
  intros H. unfold apiHandler. rewrite H. unfold dbQuery. simpl.
  now rewrite scan_loop.
Qed.





(** C2 (as amended): a count that [strconv.Atoi] rejects is answered with
    status 400 and the plain text "Invalid count parameter", and the
    state, in particular the list of executed queries, is untouched. *)
Theorem unparsable_count_is_rejected_without_query :
  forall (count : string) (w : World) (e : Strconv.NumError),
    Strconv.Atoi count = Err e ->
    let (resp, w') := apiHandler count w in
    Status resp = StatusBadRequest /\
    Payload resp = Plain ("Invalid count parameter" ++ newline) /\
    In ("Content-Type", "text/plain; charset=utf-8") (Header resp) /\
    w' = w.
Proof.
  intros count w e H. unfold apiHandler. rewrite H. simpl. auto.
Qed.

Lemma unparsable_count_witness :
  Strconv.Atoi "abc" = Err Strconv.ErrSyntax /\
  let (resp, w') := apiHandler "abc" numericDates in
  Status resp = StatusBadRequest /\
  Payload resp = Plain ("Invalid count parameter" ++ newline) /\
  In ("Content-Type", "text/plain; charset=utf-8") (Header resp) /\
  w' = numericDates.
Proof.
  split; [reflexivity|].
  apply (unparsable_count_is_rejected_without_query
           "abc" numericDates Strconv.ErrSyntax).
  reflexivity.
Defined.

(** C2, as stated, fails: "-1" is not a non-negative integer, yet it is
    accepted, the table is queried with LIMIT -1 and every row comes back
    under status 200. *)
Lemma negative_count_is_accepted :
  Strconv.Atoi "-1" = Ok (-1) /\
  ~ (exists n, Strconv.Atoi "-1" = Ok n /\ 0 <= n) /\
  Status (fst (apiHandler "-1" numericDates)) = StatusOK /\
  Payload (fst (apiHandler "-1" numericDates))
    = Json (Slice [entry "b" "10"; entry "a" "9"]) /\
  trace (snd (apiHandler "-1" numericDates))
    = (trace numericDates ++ [EvQuery (-1)])%list.
Proof.
  split; [reflexivity|]. split.
  - intros [n [H Hn]]. vm_compute in H. inversion H. subst. lia.
  - repeat split; reflexivity.
Qed.

(** C8: with the table in place, a count that parses to 0, or any parsed
    count on an empty table, is answered with status 200 and the non-nil
    empty slice, which is written as the bytes [[]] and a newline. *)
Theorem empty_result_is_an_empty_array :
  forall (jsonQuote : string -> string) (t : Sqlite.Table) (tr : list Event)
         (count : string) (n : Z),
    Strconv.Atoi count = Ok n ->
    n = 0 \/ Sqlite.rows t = [] ->
    let resp := fst (apiHandler count (tableWorld t tr)) in
    Status resp = StatusOK /\
    Payload resp = Json (Slice []) /\
    Payload resp <> Json NilSlice /\
    outputBytes jsonQuote (Payload resp) = "[]" ++ newline.
Proof.
  intros q t tr count n Hparse Hcase. cbv zeta.
  rewrite (apiHandler_ok _ _ _ _ Hparse). simpl.
  assert (Hsel : Sqlite.selectRecent n t = []).
  { unfold Sqlite.selectRecent, Sqlite.limitRows.
    destruct Hcase as [-> | ->]; simpl; [reflexivity|].
    destruct (n <? 0); [reflexivity|apply firstn_nil]. }
  rewrite Hsel. simpl. repeat split; try reflexivity. discriminate.
Qed.

Lemma empty_result_witness :
  Strconv.Atoi "0" = Ok 0 /\
  let resp := fst (apiHandler "0" (tableWorld rfc822Dates [])) in
  Status resp = StatusOK /\
  Payload resp = Json (Slice []) /\
  Payload resp <> Json NilSlice /\
  outputBytes (fun s => dquote ++ s ++ dquote) (Payload resp) = "[]" ++ newline.
Proof.
  split; [reflexivity|].
  apply (empty_result_is_an_empty_array _ rfc822Dates [] "0" 0);
    [reflexivity | left; reflexivity].
Defined.

(** ** What a column keeps *)









(** ** Decoding a document *)

Module XmlFacts.
Import Xml.

Lemma unmarshalChannel_items (content : list Node) (ch : Channel) :
  Items (unmarshalChannel content ch)
  = (Items ch ++ map (fun n => unmarshalItem (contentOf n))
                    (filter (isElement "item") content))%list.
Proof.
  unfold unmarshalChannel. revert ch.
  induction content as [|n rest IH]; intros ch; simpl.
  - now rewrite app_nil_r.
  - rewrite IH. destruct n as [nm c|d]; simpl; [|reflexivity].
    destruct (String.eqb (Local nm) "item"); simpl; [|reflexivity].
    now rewrite <- app_assoc.
Qed.

Lemma addChannel_items (content : list Node) (r : RSS) :
  Items (channel (fold_left addChannel content r))
  = (Items (channel r)
     ++ map (fun n => unmarshalItem (contentOf n))
            (flat_map (fun ch => filter (isElement "item") (contentOf ch))
                      (filter (isElement "channel") content)))%list.
Proof.
  revert r. induction content as [|n rest IH]; intros r; simpl.
  - now rewrite app_nil_r.
  - rewrite IH. destruct n as [nm c|d]; simpl; [|reflexivity].
    destruct (String.eqb (Local nm) "channel"); simpl; [|reflexivity].
    rewrite unmarshalChannel_items, map_app. now rewrite <- app_assoc.
Qed.

Lemma unmarshalRSS_items (doc : Document) :
  Items (channel (unmarshalRSS doc))
  = map (fun n => unmarshalItem (contentOf n)) (itemElements doc).
Proof.
  unfold unmarshalRSS, itemElements. now rewrite addChannel_items.
Qed.

(** A field no child element names keeps the value it had. *)
Lemma fields_kept (content : list Node) (it : Item) :
  (existsb (isElement "title") content = false ->
   Title (fold_left setField content it) = Title it) /\
  (existsb (isElement "description") content = false ->
   Description (fold_left setField content it) = Description it) /\
  (existsb (isElement "link") content = false ->
   Link (fold_left setField content it) = Link it) /\
  (existsb (isElement "pubDate") content = false ->
   PubDate (fold_left setField content it) = PubDate it).
Proof.
  revert it. induction content as [|n rest IH]; intros it; simpl.
  - auto.
  - destruct (IH (setField it n)) as [Ht [Hd [Hl Hp]]].
    destruct n as [nm c|d]; simpl in *; [|auto].
    repeat split; intros H; apply orb_false_iff in H; destruct H as [Hn Hr].
    + rewrite (Ht Hr), Hn. repeat (destruct (String.eqb _ _); simpl; auto).
    + rewrite (Hd Hr), Hn.
      destruct (String.eqb (Local nm) "title"); simpl; auto.
      repeat (destruct (String.eqb _ _); simpl; auto).
    + rewrite (Hl Hr), Hn.
      destruct (String.eqb (Local nm) "title"); simpl; auto.
      destruct (String.eqb (Local nm) "description"); simpl; auto.
      repeat (destruct (String.eqb _ _); simpl; auto).
    + rewrite (Hp Hr), Hn.
      destruct (String.eqb (Local nm) "title"); simpl; auto.
      destruct (String.eqb (Local nm) "description"); simpl; auto.
      destruct (String.eqb (Local nm) "link"); simpl; auto.
Qed.

End XmlFacts.

(** ** Fetching *)

Section FetchFacts.

Variable xmlParse : string -> Result string Xml.Document.

Lemma inserted_map_Insert (l : list Item) : inserted (map Insert l) = l.
Proof.
  induction l as [|x l IH]; simpl; [reflexivity|]. now rewrite IH.
Qed.

Lemma logged_map_Insert (l : list Item) : logged (map Insert l) = [].
Proof.
  induction l as [|x l IH]; simpl; auto.
Qed.

Lemma fetchRSS_decoded (network : Network) (url : string) (resp : Response)
      (body : string) (doc : Xml.Document) :
  network url = Ok resp -> Body resp = Ok body -> xmlParse body = Ok doc ->
  fetchRSS xmlParse network url
  = Get url :: map Insert (map (fun n => Xml.unmarshalItem (Xml.contentOf n))
                               (Xml.itemElements doc)).
Proof.
  intros Hn Hb Hp. unfold fetchRSS, xmlUnmarshal. rewrite Hn, Hb, Hp.
  now rewrite XmlFacts.unmarshalRSS_items.
Qed.


(** *** Interleaving keeps every action *)

Lemma replaceNth_concat (A : Type) (threads : list (list A)) (i : nat)
      (a : A) (rest : list A) :
  nth_error threads i = Some (a :: rest) ->
  Permutation (List.concat threads)
              (a :: List.concat (replaceNth i rest threads)).
Proof.
  revert i. induction threads as [|x l IH]; intros [|i] H; simpl in H;
    try discriminate.
  - injection H as ->. reflexivity.
  - specialize (IH i H). unfold replaceNth in *.
    change (firstn (S i) (x :: l) ++ rest :: skipn (S (S i)) (x :: l))%list
      with (x :: (firstn i l ++ rest :: skipn (S i) l))%list.
    rewrite !concat_cons, IH. symmetry. apply Permutation_middle.
Qed.

Lemma interleave_perm (A : Type) (sched : list nat) (threads : list (list A)) :
  Permutation (interleave sched threads) (List.concat threads).
Proof.
  revert threads. induction sched as [|i sched IH]; intros threads; simpl.
  - reflexivity.
  - destruct (nth_error threads i) as [[|a rest]|] eqn:E; auto.
    rewrite IH. symmetry. now apply replaceNth_concat.
Qed.

Lemma inserted_concat (ls : list (list Action)) :
  inserted (List.concat ls) = flat_map inserted ls.
Proof.
  unfold inserted at 1.
  induction ls as [|l ls IH]; simpl; [reflexivity|].
  rewrite flat_map_app. now rewrite IH.
Qed.

Lemma flat_map_of_map (A B C : Type) (f : B -> list C) (g : A -> B)
      (l : list A) :
  flat_map f (map g l) = flat_map (fun x => f (g x)) l.
Proof.
  induction l as [|x l IH]; simpl; [reflexivity|]. now rewrite IH.
Qed.

Lemma cycle_inserted (network : Network) (sched : list nat)
      (feeds : list string) :
  Permutation
    (inserted (interleave sched (map (fetchRSS xmlParse network) feeds)))
    (payloadOf xmlParse network feeds).
Proof.
  assert (E : payloadOf xmlParse network feeds
              = inserted (List.concat (map (fetchRSS xmlParse network) feeds))).
  { rewrite inserted_concat. unfold payloadOf.
    now rewrite flat_map_of_map. }
  rewrite E. unfold inserted. apply Permutation_flat_map, interleave_perm.
Qed.

(** *** Running actions against an existing table *)

Lemma run_table (acts : list Action) (t : Sqlite.Table) (tr : list Event) :
  run acts (tableWorld t tr)
  = tableWorld (insertAll (inserted acts) t) (tr ++ map eventOf acts).
Proof.
  revert t tr. induction acts as [|a acts IH]; intros t tr; simpl.
  - now rewrite app_nil_r.
  - destruct a; simpl;
      (etransitivity; [apply IH|]); simpl; now rewrite <- app_assoc.
Qed.





Lemma pollCycle_table (feeds : list string) (tk : Tick)
      (t : Sqlite.Table) (tr : list Event) :
  exists (items : list Item) (tr' : list Event),
    pollCycle xmlParse feeds tk (tableWorld t tr)
      = tableWorld (insertAll items t) tr' /\
    Permutation items (payloadOf xmlParse (net tk) feeds).
Proof.
  unfold pollCycle. rewrite run_table.
  eexists. eexists. split; [reflexivity|]. apply cycle_inserted.
Qed.

End FetchFacts.



Lemma pollFeeds_polls (xmlParse : string -> Result string Xml.Document)
      (config : Config) (ticks : list Tick) (w : World) :
  0 < tickerInterval config ->
  pollFeeds xmlParse config ticks w
  = Polling (fold_left (fun w t => pollCycle xmlParse (Feeds config) t w)
                       ticks w).
Proof.
  intros H. unfold pollFeeds.
  destruct (tickerInterval config <=? 0) eqn:E; [|reflexivity].
  apply Z.leb_le in E. lia.
Qed.

(** C6: when the payload decodes, [fetchRSS] hands to [insertItem] exactly
    one entry per [item] element under the [channel] elements, in document
    order, logs nothing, and an item without a [title], [description],
    [link] or [pubDate] child yields an entry with that field empty. *)
Theorem fetch_yields_one_entry_per_item_element :
  forall (xmlParse : string -> Result string Xml.Document) (network : Network)
         (url : string) (resp : Response) (body : string) (doc : Xml.Document),
    network url = Ok resp ->
    Body resp = Ok body ->
    xmlParse body = Ok doc ->
    let entries := inserted (fetchRSS xmlParse network url) in
    entries = map (fun n => Xml.unmarshalItem (Xml.contentOf n))
                  (Xml.itemElements doc) /\
    List.length entries = List.length (Xml.itemElements doc) /\
    logged (fetchRSS xmlParse network url) = [] /\
    forall n : Xml.Node,
      In n (Xml.itemElements doc) ->
      let e := Xml.unmarshalItem (Xml.contentOf n) in
      (Xml.hasChild "title" n = false -> Title e = "") /\
      (Xml.hasChild "description" n = false -> Description e = "") /\
      (Xml.hasChild "link" n = false -> Link e = "") /\
      (Xml.hasChild "pubDate" n = false -> PubDate e = "").
Proof.
  intros xmlParse network url resp body doc Hn Hb Hp. cbv zeta.
  rewrite (fetchRSS_decoded xmlParse _ _ _ _ _ Hn Hb Hp).
  change (inserted (Get url :: ?l)) with (inserted l).
  change (logged (Get url :: ?l)) with (logged l).
  rewrite inserted_map_Insert, logged_map_Insert, length_map.
  split; [reflexivity|]. split; [reflexivity|]. split; [reflexivity|].
  intros n _. unfold Xml.unmarshalItem, Xml.hasChild.
  apply (XmlFacts.fields_kept (Xml.contentOf n) zeroItem).
Qed.

(** C6, witness: the payload with three complete items and one without a
    title yields four entries, the fourth with an empty title. *)
Lemma fetch_yields_four_entries_witness :
  map Title (inserted (fetchRSS sampleParse sampleNet goodFeed))
    = ["one"; "two"; "three"; ""] /\
  List.length (inserted (fetchRSS sampleParse sampleNet goodFeed))
    = List.length (Xml.itemElements fourItems).
Proof.
  split; [reflexivity|].
  apply (fetch_yields_one_entry_per_item_element
           sampleParse sampleNet goodFeed
           {| StatusCode := 200; Body := Ok fourItemsBody |}
           fourItemsBody fourItems);
    reflexivity.
Defined.






(** ** The polling loop *)





(** ** The ticker *)

Lemma wrap64_small (z : Z) :
  GoInt.minInt64 <= z <= GoInt.maxInt64 -> GoInt.wrap64 z = z.
Proof.
  unfold GoInt.minInt64, GoInt.maxInt64, GoInt.wrap64. intros H.
  rewrite Z.mod_small by lia. lia.
Qed.

(** Within [-153722867 .. 153722867] minutes the interval is the period,
    in nanoseconds. *)
Lemma tickerInterval_exact (config : Config) :
  -153722867 <= Period config <= 153722867 ->
  tickerInterval config = Period config * Minute.
Proof.
  intros H. unfold tickerInterval, GoInt.mul64. apply wrap64_small.
  unfold GoInt.minInt64, GoInt.maxInt64, Minute. lia.
Qed.

(** C5 (as amended): [pollFeeds] has no guard.  A non-positive period (of
    at most 153722867 minutes in absolute value, so that the product does
    not wrap) reaches [time.NewTicker] as it is, neither rejected nor
    raised to one minute, and [NewTicker] panics before any cycle runs. *)
Theorem non_positive_period_panics :
  forall (xmlParse : string -> Result string Xml.Document) (config : Config)
         (ticks : list Tick) (w : World),
    -153722867 <= Period config <= 0 ->
    tickerInterval config = Period config * Minute /\
    tickerInterval config <> 1 * Minute /\
    pollFeeds xmlParse config ticks w
      = Panicked "non-positive interval for NewTicker".
Proof.
  intros xmlParse config ticks w H.
  assert (E : tickerInterval config = Period config * Minute)
    by (apply tickerInterval_exact; lia).
  split; [exact E|]. unfold pollFeeds. rewrite E. unfold Minute. split; [lia|].
  destruct (Period config * (60 * 1000000000) <=? 0) eqn:L; [reflexivity|].
  apply Z.leb_gt in L. lia.
Qed.

Lemma non_positive_period_witness :
  pollFeeds sampleParse {| Feeds := [goodFeed]; Period := -5 |}
            [sampleTick] startWorld
  = Panicked "non-positive interval for NewTicker".
Proof.
  refine (proj2 (proj2 (non_positive_period_panics
                          sampleParse {| Feeds := [goodFeed]; Period := -5 |}
                          [sampleTick] startWorld _))).
  simpl. lia.
Defined.

(** C5, as stated, fails: a period of 0 is neither rejected nor raised to
    one minute; the process panics.  (A period of -2^51 minutes wraps to a
    positive interval and is polled with.) *)
Lemma zero_period_crashes :
  Period {| Feeds := [goodFeed]; Period := 0 |} <= 0 /\
  pollFeeds sampleParse {| Feeds := [goodFeed]; Period := 0 |}
            [sampleTick] startWorld
    = Panicked "non-positive interval for NewTicker" /\
  pollFeeds sampleParse {| Feeds := [goodFeed]; Period := 0 |}
            [sampleTick] startWorld
    <> pollFeeds sampleParse {| Feeds := [goodFeed]; Period := 1 |}
                 [sampleTick] startWorld /\
  tickerInterval {| Feeds := [goodFeed]; Period := - 2 ^ 51 |} = 2 ^ 62.
Proof.
  split; [simpl; lia|]. split; [reflexivity|]. split; [|reflexivity].
  vm_compute. discriminate.
Qed.



(** * Further properties of the code *)

(** ** The table *)


Lemma insertRow_ascending (t : Sqlite.Table) (a b c d : string) :
  ascendingIds t -> ascendingIds (Sqlite.insertRow t a b c d).
Proof.
  intros [Hs Hb]. unfold ascendingIds, Sqlite.insertRow. simpl.
  rewrite map_app. simpl. split.
  - clear -Hs Hb. induction (Sqlite.rows t) as [|r rs IH]; simpl.
    + repeat constructor.
    + inversion Hs as [|? ? Hs' Hall]; subst.
      inversion Hb as [|? ? Hr Hb']; subst.
      constructor; [now apply IH|].
      apply Forall_app. split; [exact Hall|].
      constructor; [lia|constructor].
  - apply Forall_app. split.
    + eapply Forall_impl; [|exact Hb]. simpl. intros r Hr. lia.
    + constructor; [simpl; lia|constructor].
Qed.

Lemma insertAll_ascending (items : list Item) (t : Sqlite.Table) :
  ascendingIds t -> ascendingIds (insertAll items t).
Proof.
  revert t. induction items as [|it items IH]; intros t H; simpl; auto.
  apply IH. now apply insertRow_ascending.
Qed.

Lemma insertAll_rows (items : list Item) (t : Sqlite.Table) :
  exists new : list Sqlite.Row,
    Sqlite.rows (insertAll items t) = (Sqlite.rows t ++ new)%list /\
    map Sqlite.cells new = map itemCells items.
Proof.
  revert t. induction items as [|it items IH]; intros t; simpl.
  - exists []. now rewrite app_nil_r.
  - destruct (IH (Sqlite.insertRow t (Title it) (Description it) (Link it)
                                    (PubDate it))) as [new [Hrows Hcells]].
    unfold insertAll in *. simpl. rewrite Hrows. simpl.
    rewrite <- app_assoc. eexists. split; [reflexivity|].
    simpl. now rewrite Hcells.
Qed.

Lemma pollLoop_table (xmlParse : string -> Result string Xml.Document)
      (feeds : list string) (ticks : list Tick) :
  forall (t : Sqlite.Table) (tr : list Event),
  exists (items : list Item) (tr' : list Event),
    fold_left (fun w tk => pollCycle xmlParse feeds tk w) ticks (tableWorld t tr)
    = tableWorld (insertAll items t) tr'.
Proof.
  induction ticks as [|tk ticks IH]; intros t tr.
  - exists [], tr. reflexivity.
  - destruct (pollCycle_table xmlParse feeds tk t tr) as [i1 [tr1 [Hc _]]].
    destruct (IH (insertAll i1 t) tr1) as [i2 [tr2 Hrun]].
    exists (i1 ++ i2)%list, tr2. simpl fold_left. rewrite Hc, Hrun.
    unfold insertAll. now rewrite fold_left_app.
Qed.

(** X2: polling keeps the ids in order: if the ids of the table grow along
    its rows and stay within the AUTOINCREMENT counter, they still do after
    any number of cycles, so every row has an id of its own. *)
Theorem polling_keeps_ids_ascending :
  forall (xmlParse : string -> Result string Xml.Document) (config : Config)
         (ticks : list Tick) (t : Sqlite.Table) (tr : list Event),
    0 < tickerInterval config ->
    ascendingIds t ->
    exists (t' : Sqlite.Table) (tr' : list Event),
      pollFeeds xmlParse config ticks (tableWorld t tr)
        = Polling (tableWorld t' tr') /\
      ascendingIds t' /\
      NoDup (map Sqlite.id (Sqlite.rows t')).
Proof.
  intros xmlParse config ticks t tr Hpos Hasc.
  destruct (pollLoop_table xmlParse (Feeds config) ticks t tr)
    as [items [tr' Hrun]].
  exists (insertAll items t), tr'.
  rewrite (pollFeeds_polls _ _ _ _ Hpos), Hrun.
  pose proof (insertAll_ascending items t Hasc) as H.
  split; [reflexivity|]. split; [exact H|].
  destruct H as [Hs _]. clear -Hs.
  induction Hs as [|x xs Hs IH Hall]; constructor; auto.
  intros Hin. rewrite Forall_forall in Hall. specialize (Hall x Hin). lia.
Qed.

Lemma polling_keeps_ids_witness :
  exists (t' : Sqlite.Table) (tr' : list Event),
    pollFeeds sampleParse twoFeeds [sampleTick; sampleTick]
              (tableWorld Sqlite.emptyTable [])
      = Polling (tableWorld t' tr') /\
    ascendingIds t' /\
    NoDup (map Sqlite.id (Sqlite.rows t')).
Proof.
  apply (polling_keeps_ids_ascending sampleParse twoFeeds
           [sampleTick; sampleTick] Sqlite.emptyTable []).
  - reflexivity.
  - split; constructor.
Defined.

(** X3: polling only appends: the rows present before are still there,
    unchanged and in the same places, in front of the new ones. *)
Theorem polling_only_appends :
  forall (xmlParse : string -> Result string Xml.Document) (config : Config)
         (ticks : list Tick) (t : Sqlite.Table) (tr : list Event),
    0 < tickerInterval config ->
    exists (t' : Sqlite.Table) (tr' : list Event) (new : list Sqlite.Row),
      pollFeeds xmlParse config ticks (tableWorld t tr)
        = Polling (tableWorld t' tr') /\
      Sqlite.rows t' = (Sqlite.rows t ++ new)%list.
Proof.
  intros xmlParse config ticks t tr Hpos.
  destruct (pollLoop_table xmlParse (Feeds config) ticks t tr)
    as [items [tr' Hrun]].
  destruct (insertAll_rows items t) as [new [Hrows _]].
  exists (insertAll items t), tr', new.
  rewrite (pollFeeds_polls _ _ _ _ Hpos), Hrun. auto.
Qed.

Lemma polling_only_appends_witness :
  exists (t' : Sqlite.Table) (tr' : list Event) (new : list Sqlite.Row),
    pollFeeds sampleParse twoFeeds [sampleTick] (tableWorld rfc822Dates [])
      = Polling (tableWorld t' tr') /\
    Sqlite.rows t' = (Sqlite.rows rfc822Dates ++ new)%list.
Proof.
  apply (polling_only_appends sampleParse twoFeeds [sampleTick] rfc822Dates []).
  reflexivity.
Defined.

(** ** The read path, further *)

Lemma apiHandler_no_table (tr : list Event) (count : string) (n : Z) :
  Strconv.Atoi count = Ok n ->
  apiHandler count {| db := None; trace := tr |}
  = (httpError noSuchTable StatusInternalServerError,
     {| db := None; trace := tr ++ [EvQuery n] |}).
Proof.
  intros H. unfold apiHandler. now rewrite H.
Qed.

(** X4: [apiHandler] never writes: whatever the count and the state, the
    table is the same afterwards, and the trace gains at most the one
    query. *)
Theorem apiHandler_never_writes :
  forall (count : string) (w : World),
    db (snd (apiHandler count w)) = db w /\
    (snd (apiHandler count w) = w \/
     exists n : Z,
       Strconv.Atoi count = Ok n /\
       trace (snd (apiHandler count w)) = (trace w ++ [EvQuery n])%list).
Proof.
  intros count [[t|] tr]; destruct (Strconv.Atoi count) as [n|e] eqn:E.
  - change {| db := Some t; trace := tr |} with (tableWorld t tr).
    rewrite (apiHandler_ok _ _ _ _ E). simpl. split; [reflexivity|].
    right. eauto.
  - unfold apiHandler. rewrite E. simpl. auto.
  - rewrite (apiHandler_no_table _ _ _ E). simpl. split; [reflexivity|].
    right. eauto.
  - unfold apiHandler. rewrite E. simpl. auto.
Qed.

(** X5: the status tells the three outcomes apart: 400 exactly when the
    count does not parse, 500 exactly when it parses and the table is
    missing, 200 exactly when it parses and the table exists; only a 200
    response carries items. *)
Theorem apiHandler_status :
  forall (count : string) (w : World),
    let resp := fst (apiHandler count w) in
    (Status resp = StatusBadRequest <->
     exists e, Strconv.Atoi count = Err e) /\
    (Status resp = StatusInternalServerError <->
     (exists n, Strconv.Atoi count = Ok n) /\ db w = None) /\
    (Status resp = StatusOK <->
     (exists n, Strconv.Atoi count = Ok n) /\ exists t, db w = Some t) /\
    (Status resp = StatusOK <-> exists its, itemsOf resp = Some its).
Proof.
  intros count [[t|] tr]; destruct (Strconv.Atoi count) as [n|e] eqn:E;
    cbv zeta;
    [ change {| db := Some t; trace := tr |} with (tableWorld t tr);
      rewrite (apiHandler_ok _ _ _ _ E)
    | unfold apiHandler; rewrite E
    | rewrite (apiHandler_no_table _ _ _ E)
    | unfold apiHandler; rewrite E ];
    unfold itemsOf, StatusOK, StatusBadRequest, StatusInternalServerError;
    simpl;
    (split; [|split; [|split]]);
    (split; intros H;
     [ try discriminate; try solve [repeat split; eauto]
     | try reflexivity;
       try solve [destruct H as [x Hx]; discriminate];
       try solve [destruct H as [[x Hx] _]; discriminate];
       try solve [destruct H as [_ Hx]; discriminate];
       try solve [destruct H as [_ [x Hx]]; discriminate] ]).
Qed.

(** X6: a negative count, like a count that reaches the number of rows,
    returns every entry of the table. *)
Theorem negative_or_large_count_returns_everything :
  forall (t : Sqlite.Table) (tr : list Event) (count : string) (n : Z),
    Strconv.Atoi count = Ok n ->
    n < 0 \/ Z.of_nat (List.length (Sqlite.rows t)) <= n ->
    exists its : list Item,
      itemsOf (fst (apiHandler count (tableWorld t tr))) = Some its /\
      Permutation its (map scanRow (Sqlite.rows t)) /\
      List.length its = List.length (Sqlite.rows t).
Proof.
  intros t tr count n Hparse Hn.
  rewrite (apiHandler_ok _ _ _ _ Hparse). simpl.
  eexists. split; [reflexivity|].
  pose proof (SqliteFacts.orderBy_perm (Sqlite.rows t)) as Hperm.
  assert (Hall : Sqlite.selectRecent n t
                 = Sqlite.orderByPubDateDesc (Sqlite.rows t)).
  { unfold Sqlite.selectRecent, Sqlite.limitRows.
    destruct (n <? 0) eqn:E; [reflexivity|].
    apply Z.ltb_ge in E. apply firstn_all2.
    rewrite (Permutation_length Hperm). lia. }
  rewrite Hall. split.
  - now apply Permutation_map.
  - rewrite length_map. now apply Permutation_length.
Qed.

Lemma negative_or_large_count_witness :
  exists its : list Item,
    itemsOf (fst (apiHandler "-7" (tableWorld rfc822Dates []))) = Some its /\
    Permutation its (map scanRow (Sqlite.rows rfc822Dates)) /\
    List.length its = List.length (Sqlite.rows rfc822Dates).
Proof.
  apply (negative_or_large_count_returns_everything rfc822Dates [] "-7" (-7));
    [reflexivity | left; lia].
Defined.

Lemma sorted_app_inv (A : Type) (R : A -> A -> Prop) (l1 l2 : list A) :
  StronglySorted R (l1 ++ l2) ->
  forall x y, In x l1 -> In y l2 -> R x y.
Proof.
  induction l1 as [|a l1 IH]; simpl; intros Hs x y Hx Hy; [contradiction|].
  inversion Hs as [|? ? Hs' Hall]; subst.
  destruct Hx as [<- | Hx].
  - rewrite Forall_forall in Hall. apply Hall. apply in_or_app. now right.
  - eapply IH; eauto.
Qed.

(** X7: the query returns the most recent entries: the table splits into
    the rows returned and the rows left out, and no row left out sorts
    after a row returned. *)
Theorem query_returns_the_largest_keys :
  forall (t : Sqlite.Table) (tr : list Event) (count : string) (n : Z),
    Strconv.Atoi count = Ok n ->
    0 <= n ->
    exists returned omitted : list Sqlite.Row,
      Permutation (returned ++ omitted) (Sqlite.rows t) /\
      itemsOf (fst (apiHandler count (tableWorld t tr)))
        = Some (map scanRow returned) /\
      forall r r', In r returned -> In r' omitted ->
                   Sqlite.le (Sqlite.pubDate r') (Sqlite.pubDate r).
Proof.
  intros t tr count n Hparse Hn.
  rewrite (apiHandler_ok _ _ _ _ Hparse). simpl.
  exists (firstn (Z.to_nat n) (Sqlite.orderByPubDateDesc (Sqlite.rows t))).
  exists (skipn (Z.to_nat n) (Sqlite.orderByPubDateDesc (Sqlite.rows t))).
  rewrite firstn_skipn. split; [apply SqliteFacts.orderBy_perm|]. split.
  - unfold Sqlite.selectRecent, Sqlite.limitRows.
    destruct (n <? 0) eqn:E; [apply Z.ltb_lt in E; lia|reflexivity].
  - intros r r' Hr Hr'.
    pose proof (SqliteFacts.orderBy_sorted (Sqlite.rows t)) as Hs.
    unfold storedDescending in Hs.
    rewrite <- (firstn_skipn (Z.to_nat n)) in Hs.
    exact (sorted_app_inv _ _ _ _ Hs r r' Hr Hr').
Qed.

Lemma query_returns_the_largest_keys_witness :
  exists returned omitted : list Sqlite.Row,
    Permutation (returned ++ omitted) (Sqlite.rows rfc822Dates) /\
    itemsOf (fst (apiHandler "1" (tableWorld rfc822Dates [])))
      = Some (map scanRow returned) /\
    forall r r', In r returned -> In r' omitted ->
                 Sqlite.le (Sqlite.pubDate r') (Sqlite.pubDate r).
Proof.
  apply (query_returns_the_largest_keys rfc822Dates [] "1" 1);
    [reflexivity | lia].
Defined.

(** X8: asking for fewer entries gives the beginning of what asking for
    more gives, on the same table: the dates returned for the smaller count
    are the first dates returned for the larger one. *)
Theorem smaller_count_is_a_prefix :
  forall (t : Sqlite.Table) (tr1 tr2 : list Event)
         (c1 c2 : string) (n1 n2 : Z),
    Strconv.Atoi c1 = Ok n1 ->
    Strconv.Atoi c2 = Ok n2 ->
    0 <= n1 <= n2 ->
    exists its1 its2 : list Item,
      itemsOf (fst (apiHandler c1 (tableWorld t tr1))) = Some its1 /\
      itemsOf (fst (apiHandler c2 (tableWorld t tr2))) = Some its2 /\
      map PubDate its1 = firstn (Z.to_nat n1) (map PubDate its2).
Proof.
  intros t tr1 tr2 c1 c2 n1 n2 H1 H2 Hn.
  rewrite (apiHandler_ok _ _ _ _ H1), (apiHandler_ok _ _ _ _ H2). simpl.
  eexists. eexists. split; [reflexivity|]. split; [reflexivity|].
  unfold Sqlite.selectRecent, Sqlite.limitRows.
  destruct (n1 <? 0) eqn:E1; [apply Z.ltb_lt in E1; lia|].
  destruct (n2 <? 0) eqn:E2; [apply Z.ltb_lt in E2; lia|].
  rewrite <- !firstn_map, firstn_firstn.
  f_equal. lia.
Qed.

Lemma smaller_count_witness :
  exists its1 its2 : list Item,
    itemsOf (fst (apiHandler "1" (tableWorld rfc822Dates []))) = Some its1 /\
    itemsOf (fst (apiHandler "2" (tableWorld rfc822Dates []))) = Some its2 /\
    map PubDate its1 = firstn (Z.to_nat 1) (map PubDate its2).
Proof.
  apply (smaller_count_is_a_prefix rfc822Dates [] [] "1" "2" 1 2);
    [reflexivity | reflexivity | lia].
Defined.

(** X9: title, description and link are TEXT columns: whatever their
    content, numeric or not, the row [insertItem] writes gives them back
    unchanged; the new row comes last and gets the next id. *)
Theorem text_columns_are_kept_verbatim :
  forall (t : Sqlite.Table) (tr : list Event) (item : Item),
    exists (t' : Sqlite.Table) (r : Sqlite.Row),
      db (insertItem item (tableWorld t tr)) = Some t' /\
      Sqlite.rows t' = (Sqlite.rows t ++ [r])%list /\
      Sqlite.id r = Sqlite.lastId t + 1 /\
      Title (scanRow r) = Title item /\
      Description (scanRow r) = Description item /\
      Link (scanRow r) = Link item.
Proof.
  intros t tr item. eexists. eexists.
  unfold insertItem, dbExec. simpl.
  split; [reflexivity|]. split; [reflexivity|]. simpl. auto.
Qed.

(** ** Fetching, further *)

Lemma requested_map_Insert (l : list Item) : requested (map Insert l) = [].
Proof.
  induction l as [|x l IH]; simpl; auto.
Qed.

Lemma requested_fetch (xmlParse : string -> Result string Xml.Document)
      (network : Network) (url : string) :
  requested (fetchRSS xmlParse network url) = [url].
Proof.
  unfold fetchRSS.
  change (requested (Get url :: ?l)) with (url :: requested l). f_equal.
  destruct (network url) as [resp|e]; [|reflexivity].
  destruct (Body resp) as [body|e]; [|reflexivity].
  destruct (xmlUnmarshal xmlParse body) as [rss|e]; [|reflexivity].
  apply requested_map_Insert.
Qed.

(** X10: one call of [fetchRSS] sends exactly one request, first of all,
    and then either logs nothing, or logs exactly one line and hands
    nothing to [insertItem]: it never does both. *)
Theorem fetch_logs_or_inserts :
  forall (xmlParse : string -> Result string Xml.Document) (network : Network)
         (url : string),
    let acts := fetchRSS xmlParse network url in
    hd_error acts = Some (Get url) /\
    requested acts = [url] /\
    (logged acts = [] \/
     inserted acts = [] /\ exists msg, logged acts = [msg]).
Proof.
  intros xmlParse network url. cbv zeta.
  split; [reflexivity|]. split; [apply requested_fetch|].
  unfold fetchRSS.
  change (logged (Get url :: ?l)) with (logged l).
  change (inserted (Get url :: ?l)) with (inserted l).
  destruct (network url) as [resp|e]; [|right; simpl; eauto].
  destruct (Body resp) as [body|e]; [|right; simpl; eauto].
  destruct (xmlUnmarshal xmlParse body) as [rss|e]; [|right; simpl; eauto].
  left. apply logged_map_Insert.
Qed.



(** *** The order of one feed's entries *)











(** ** Requests and cycles *)

Lemma requests_app (a b : list Event) :
  requests (a ++ b) = (requests a ++ requests b)%list.
Proof. apply flat_map_app. Qed.

Lemma requests_perform (a : Action) (w : World) :
  requests (trace (perform a w)) = (requests (trace w) ++ requested [a])%list.
Proof.
  destruct a as [u|m|it]; simpl.
  - now rewrite requests_app.
  - rewrite requests_app. simpl. now rewrite app_nil_r.
  - unfold insertItem, dbExec. destruct (db w); simpl;
      rewrite ?requests_app; simpl; now rewrite ?app_nil_r.
Qed.

Lemma requests_run (acts : list Action) (w : World) :
  requests (trace (run acts w)) = (requests (trace w) ++ requested acts)%list.
Proof.
  revert w. induction acts as [|a acts IH]; intros w.
  - simpl. now rewrite app_nil_r.
  - change (run (a :: acts) w) with (run acts (perform a w)).
    rewrite IH, requests_perform, <- app_assoc. f_equal.
    unfold requested. simpl. now rewrite app_nil_r.
Qed.

Lemma requested_cycle (xmlParse : string -> Result string Xml.Document)
      (network : Network) (schedule : list nat) (feeds : list string) :
  Permutation
    (requested (interleave schedule (map (fetchRSS xmlParse network) feeds)))
    feeds.
Proof.
  assert (E : requested (List.concat (map (fetchRSS xmlParse network) feeds))
              = feeds).
  { induction feeds as [|u feeds IH]; [reflexivity|].
    change (requested (fetchRSS xmlParse network u
                       ++ List.concat (map (fetchRSS xmlParse network) feeds))
            = u :: feeds)%list.
    unfold requested at 1. rewrite flat_map_app.
    fold (requested (fetchRSS xmlParse network u)).
    fold (requested (List.concat (map (fetchRSS xmlParse network) feeds))).
    now rewrite requested_fetch, IH. }
  rewrite <- E at 2. unfold requested.
  apply Permutation_flat_map, interleave_perm.
Qed.

Lemma pollLoop_requests (xmlParse : string -> Result string Xml.Document)
      (feeds : list string) (ticks : list Tick) :
  forall w : World,
  exists sent : list string,
    requests (trace (fold_left (fun w tk => pollCycle xmlParse feeds tk w)
                               ticks w))
      = (requests (trace w) ++ sent)%list /\
    List.length sent = (List.length ticks * List.length feeds)%nat /\
    forall u : string,
      count_occ string_dec sent u
      = (List.length ticks * count_occ string_dec feeds u)%nat.
Proof.
  induction ticks as [|tk ticks IH]; intros w.
  - exists []. simpl. now rewrite app_nil_r.
  - destruct (IH (pollCycle xmlParse feeds tk w)) as [sent [Htr [Hlen Hcount]]].
    pose proof (requested_cycle xmlParse (net tk) (sched tk) feeds) as Hperm.
    exists (requested (interleave (sched tk)
                         (map (fetchRSS xmlParse (net tk)) feeds)) ++ sent)%list.
    simpl fold_left. rewrite Htr. unfold pollCycle at 1.
    rewrite requests_run, <- app_assoc. split; [reflexivity|]. split.
    + rewrite length_app, Hlen, (Permutation_length Hperm).
      simpl List.length. lia.
    + intros u. rewrite count_occ_app, Hcount.
      assert (Hp : count_occ string_dec
                     (requested (interleave (sched tk)
                                   (map (fetchRSS xmlParse (net tk)) feeds))) u
                   = count_occ string_dec feeds u)
        by (apply Permutation_count_occ, Hperm).
      rewrite Hp. simpl List.length. lia.
Qed.

(** X13: every cycle sends one request per configured feed, no more and no
    fewer: after k ticks each address has been requested k times as often
    as it is listed in the configuration, whatever the feeds answered and
    whether or not the table exists. *)
Theorem each_cycle_requests_every_feed_once :
  forall (xmlParse : string -> Result string Xml.Document) (config : Config)
         (ticks : list Tick) (w : World),
    0 < tickerInterval config ->
    exists (w' : World) (sent : list string),
      pollFeeds xmlParse config ticks w = Polling w' /\
      requests (trace w') = (requests (trace w) ++ sent)%list /\
      forall u : string,
        count_occ string_dec sent u
        = (List.length ticks * count_occ string_dec (Feeds config) u)%nat.
Proof.
  intros xmlParse config ticks w Hpos.
  destruct (pollLoop_requests xmlParse (Feeds config) ticks w)
    as [sent [Htr [_ Hcount]]].
  eexists. exists sent. rewrite (pollFeeds_polls _ _ _ _ Hpos).
  split; [reflexivity|]. auto.
Qed.

Lemma each_cycle_requests_witness :
  exists (w' : World) (sent : list string),
    pollFeeds sampleParse twoFeeds [sampleTick; sampleTick] startWorld
      = Polling w' /\
    requests (trace w') = (requests (trace startWorld) ++ sent)%list /\
    forall u : string,
      count_occ string_dec sent u
      = (List.length [sampleTick; sampleTick]
         * count_occ string_dec (Feeds twoFeeds) u)%nat.
Proof.
  apply (each_cycle_requests_every_feed_once sampleParse twoFeeds
           [sampleTick; sampleTick] startWorld).
  reflexivity.
Defined.

(** X14: a period from 1 to 153722867 minutes is polled with as it is:
    the interval handed to the ticker is the period in nanoseconds,
    [time.NewTicker] does not panic and the loop runs its cycles. *)
Theorem positive_period_is_polled_with :
  forall (xmlParse : string -> Result string Xml.Document) (config : Config)
         (ticks : list Tick) (w : World),
    1 <= Period config <= 153722867 ->
    tickerInterval config = Period config * Minute /\
    0 < tickerInterval config /\
    pollFeeds xmlParse config ticks w
    = Polling (fold_left (fun w t => pollCycle xmlParse (Feeds config) t w)
                         ticks w).
Proof.
  intros xmlParse config ticks w Hp.
  assert (E : tickerInterval config = Period config * Minute)
    by (apply tickerInterval_exact; lia).
  assert (Hpos : 0 < tickerInterval config)
    by (rewrite E; unfold Minute; lia).
  split; [exact E|]. split; [exact Hpos|]. now apply pollFeeds_polls.
Qed.

Lemma positive_period_witness :
  tickerInterval (everyMinute [goodFeed]) = 1 * Minute /\
  0 < tickerInterval (everyMinute [goodFeed]).
Proof.
  pose proof (positive_period_is_polled_with sampleParse
                (everyMinute [goodFeed]) [] startWorld) as H.
  assert (Hp : 1 <= Period (everyMinute [goodFeed]) <= 153722867)
    by (simpl; lia).
  destruct (H Hp) as [H1 [H2 _]]. split; [exact H1 | exact H2].
Defined.

(** X15: a period from 153722868 to 307445734 minutes, although positive,
    overflows the 64-bit product to a negative interval, and
    [time.NewTicker] panics before any cycle runs. *)
Theorem overflowing_period_panics :
  forall (xmlParse : string -> Result string Xml.Document) (config : Config)
         (ticks : list Tick) (w : World),
    153722868 <= Period config <= 307445734 ->
    tickerInterval config = Period config * Minute - 2 ^ 64 /\
    tickerInterval config < 0 /\
    pollFeeds xmlParse config ticks w
    = Panicked "non-positive interval for NewTicker".
Proof.
  intros xmlParse config ticks w Hp.
  assert (E : tickerInterval config = Period config * Minute - 2 ^ 64).
  { unfold tickerInterval, GoInt.mul64, GoInt.wrap64, Minute.
    rewrite <- (Z.mod_add _ (-1) (2 ^ 64)) by lia.
    rewrite Z.mod_small by lia. lia. }
  assert (Hneg : tickerInterval config < 0)
    by (rewrite E; unfold Minute; lia).
  split; [exact E|]. split; [exact Hneg|].
  unfold pollFeeds.
  destruct (tickerInterval config <=? 0) eqn:L; [reflexivity|].
  apply Z.leb_gt in L. lia.
Qed.

Lemma overflowing_period_witness :
  pollFeeds sampleParse {| Feeds := [goodFeed]; Period := 153722868 |}
            [sampleTick] startWorld
  = Panicked "non-positive interval for NewTicker".
Proof.
  refine (proj2 (proj2 (overflowing_period_panics sampleParse
            {| Feeds := [goodFeed]; Period := 153722868 |}
            [sampleTick] startWorld _))).
  simpl. lia.
Defined.

(** ** Decimal text and what reads it *)

Lemma parseDigits_acc (d : Decimal.uint) :
  forall p : positive,
    Strconv.parseDigits (NilEmpty.string_of_uint d) (Zpos p)
    = Some (Zpos (Pos.of_uint_acc d p)).
Proof.
  induction d; intros p; cbn [NilEmpty.string_of_uint Pos.of_uint_acc];
    [reflexivity | ..];
    cbn [Strconv.parseDigits];
    match goal with
    | |- context [Strconv.isDigit ?c] =>
        change (Strconv.isDigit c) with true; cbv iota
    end;
    rewrite <- IHd; f_equal; unfold Strconv.digitVal;
    match goal with
    | |- context [N_of_ascii ?c] =>
        let v := eval cbv in (Z.of_N (N_of_ascii c)) in
        change (Z.of_N (N_of_ascii c)) with v
    end;
    lia.
Qed.

Lemma parseDigits_uint (d : Decimal.uint) :
  Strconv.parseDigits (NilEmpty.string_of_uint d) 0
  = Some (Z.of_N (Pos.of_uint d)).
Proof.
  induction d; cbn [NilEmpty.string_of_uint Pos.of_uint];
    [reflexivity | ..];
    cbn [Strconv.parseDigits];
    match goal with
    | |- context [Strconv.isDigit ?c] =>
        change (Strconv.isDigit c) with true; cbv iota
    end;
    [exact IHd | ..];
    match goal with
    | |- Strconv.parseDigits _ ?a = _ =>
        let v := eval cbv in a in change a with v
    end;
    apply parseDigits_acc.
Qed.

Lemma string_of_uint_head (d : Decimal.uint) :
  d <> Decimal.Nil ->
  exists (c : ascii) (r : string),
    NilEmpty.string_of_uint d = String c r /\
    Strconv.isDigit c = true /\
    Strconv.isSign c = false /\
    Sqlite.isSpace c = false.
Proof.
  destruct d; [congruence | ..]; intros _; simpl;
    eexists; eexists; repeat split.
Qed.

Lemma parseDigits_pos (p : positive) :
  exists (c : ascii) (r : string),
    NilZero.string_of_uint (Pos.to_uint p) = String c r /\
    Strconv.isDigit c = true /\
    Strconv.isSign c = false /\
    Sqlite.isSpace c = false /\
    Strconv.parseDigits (String c r) 0 = Some (Zpos p).
Proof.
  pose proof (DecimalPos.Unsigned.to_uint_nonnil p) as Hnn.
  destruct (string_of_uint_head _ Hnn) as [c [r [Hs [Hd [Hsg Hsp]]]]].
  exists c, r.
  assert (E : NilZero.string_of_uint (Pos.to_uint p)
              = NilEmpty.string_of_uint (Pos.to_uint p))
    by (unfold NilZero.string_of_uint; destruct (Pos.to_uint p); congruence).
  rewrite E, Hs. repeat split; auto.
  rewrite <- Hs, parseDigits_uint, DecimalPos.Unsigned.of_to. reflexivity.
Qed.

Lemma Atoi_unsigned (c : ascii) (r : string) (n : Z) :
  Strconv.isSign c = false ->
  Strconv.parseDigits (String c r) 0 = Some n ->
  n <= GoInt.maxInt64 ->
  Strconv.Atoi (String c r) = Ok n.
Proof.
  intros Hsg Hp Hn. unfold Strconv.Atoi. cbv zeta. rewrite Hsg. cbv iota.
  rewrite Hp.
  assert (Hc : Ascii.eqb c "-"%char = false).
  { unfold Strconv.isSign in Hsg. now apply orb_false_iff in Hsg. }
  rewrite Hc.
  destruct (n <=? GoInt.maxInt64) eqn:L; [reflexivity|].
  apply Z.leb_gt in L. lia.
Qed.

Lemma Atoi_negative (c : ascii) (r : string) (n : Z) :
  Strconv.parseDigits (String c r) 0 = Some n ->
  n <= 2 ^ 63 ->
  Strconv.Atoi (String "-" (String c r)) = Ok (- n).
Proof.
  intros Hp Hn. unfold Strconv.Atoi. cbv zeta.
  change (Strconv.isSign "-") with true. cbv iota. rewrite Hp.
  change (Ascii.eqb "-" "-") with true. cbv iota.
  destruct (n <=? 2 ^ 63) eqn:L; [reflexivity|].
  apply Z.leb_gt in L. lia.
Qed.

Lemma Atoi_FormatInt (z : Z) :
  inInt64 z -> Strconv.Atoi (Strconv.FormatInt z) = Ok z.
Proof.
  unfold inInt64, GoInt.minInt64, GoInt.maxInt64. intros Hz.
  destruct z as [|p|p]; [reflexivity | |];
    unfold Strconv.FormatInt; simpl Z.to_int; simpl NilZero.string_of_int;
    destruct (parseDigits_pos p) as [c [r [Hs [Hd [Hsg [_ Hp]]]]]];
    rewrite Hs.
  - apply Atoi_unsigned; auto. unfold GoInt.maxInt64. lia.
  - change (Z.neg p) with (- Z.pos p). apply Atoi_negative; auto. lia.
Qed.

(** X16: the decimal rendering of every 64-bit integer is a count the
    handler accepts, and the query runs with that very limit. *)
Theorem formatted_count_is_accepted :
  forall (t : Sqlite.Table) (tr : list Event) (n : Z),
    inInt64 n ->
    apiHandler (Strconv.FormatInt n) (tableWorld t tr)
    = (jsonResponse (Slice (map scanRow (Sqlite.selectRecent n t))),
       tableWorld t (tr ++ [EvQuery n])).
Proof.
  intros t tr n Hn. apply apiHandler_ok. now apply Atoi_FormatInt.
Qed.

Lemma formatted_count_witness :
  apiHandler (Strconv.FormatInt (-9223372036854775808))
             (tableWorld rfc822Dates [])
  = (jsonResponse
       (Slice (map scanRow
                   (Sqlite.selectRecent (-9223372036854775808) rfc822Dates))),
     tableWorld rfc822Dates ([] ++ [EvQuery (-9223372036854775808)])).
Proof.
  apply (formatted_count_is_accepted rfc822Dates [] (-9223372036854775808)).
  unfold inInt64, GoInt.minInt64, GoInt.maxInt64. lia.
Defined.

Lemma digitsValue_parseDigits (s : string) :
  forall (acc v : Z),
    Strconv.parseDigits s acc = Some v -> Sqlite.digitsValue s acc = Some v.
Proof.
  induction s as [|c s IH]; intros acc v H; simpl in *; [exact H|].
  destruct (Strconv.isDigit c); [now apply IH | discriminate].
Qed.

Lemma integerLiteral_range (s : string) (z : Z) :
  Sqlite.integerLiteral s = Some z -> inInt64 z.
Proof.
  unfold Sqlite.integerLiteral, inInt64.
  destruct (Sqlite.startsWithDigit _); [|discriminate].
  destruct (Sqlite.digitsValue _ 0) as [n|]; [|discriminate].
  match goal with
  | |- context [if ?b then Some _ else None] => destruct b eqn:E
  end; [|discriminate].
  intros [= <-]. apply andb_true_iff in E. destruct E as [E1 E2].
  apply Z.leb_le in E1, E2. auto.
Qed.

Lemma integerLiteral_FormatInt (z : Z) :
  inInt64 z -> Sqlite.integerLiteral (Strconv.FormatInt z) = Some z.
Proof.
  unfold inInt64, GoInt.minInt64, GoInt.maxInt64. intros Hz.
  destruct z as [|p|p]; [reflexivity | |];
    unfold Strconv.FormatInt; simpl Z.to_int; simpl NilZero.string_of_int;
    destruct (parseDigits_pos p) as [c [r [Hs [Hd [Hsg [Hsp Hp]]]]]];
    rewrite Hs; apply digitsValue_parseDigits in Hp;
    unfold Sqlite.integerLiteral.
  - assert (Hc : Ascii.eqb c "-"%char = false).
    { unfold Strconv.isSign in Hsg. now apply orb_false_iff in Hsg. }
    cbn [Sqlite.skipSpaces]. rewrite Hsp, Hsg, Hc.
    cbn [Sqlite.startsWithDigit]. rewrite Hd, Hp.
    unfold GoInt.minInt64, GoInt.maxInt64.
    destruct ((- 2 ^ 63 <=? Z.pos p) && (Z.pos p <=? 2 ^ 63 - 1)) eqn:L;
      [reflexivity|].
    apply andb_false_iff in L. destruct L as [L|L]; apply Z.leb_gt in L; lia.
  - cbn [Sqlite.skipSpaces]. change (Sqlite.isSpace "-") with false.
    cbv iota. change (Strconv.isSign "-") with true.
    change (Ascii.eqb "-" "-") with true. cbv iota.
    cbn [Sqlite.startsWithDigit]. rewrite Hd, Hp.
    unfold GoInt.minInt64, GoInt.maxInt64.
    change (- Z.pos p) with (Z.neg p).
    destruct ((- 2 ^ 63 <=? Z.neg p) && (Z.neg p <=? 2 ^ 63 - 1)) eqn:L;
      [reflexivity|].
    apply andb_false_iff in L. destruct L as [L|L]; apply Z.leb_gt in L; lia.
Qed.

(** X17: a [pubDate] that is an integer literal is stored as that integer
    and read back in plain decimal; the text read back, inserted again,
    is stored as the same integer, so one pass through the table is all
    the change such a date undergoes. *)
Theorem integer_pubDate_is_normalised_once :
  forall (t : Sqlite.Table) (tr : list Event) (item : Item) (z : Z),
    Sqlite.integerLiteral (PubDate item) = Some z ->
    exists (t' : Sqlite.Table) (r : Sqlite.Row),
      db (insertItem item (tableWorld t tr)) = Some t' /\
      Sqlite.rows t' = (Sqlite.rows t ++ [r])%list /\
      Sqlite.pubDate r = Sqlite.VInteger z /\
      PubDate (scanRow r) = Strconv.FormatInt z /\
      Sqlite.store (Sqlite.columnAffinity "pubDate") (PubDate (scanRow r))
        = Sqlite.VInteger z.
Proof.
  intros t tr item z Hz. eexists. eexists.
  unfold insertItem, dbExec. simpl.
  split; [reflexivity|]. split; [reflexivity|]. simpl.
  replace (Sqlite.columnAffinity "pubDate") with Sqlite.AffNumeric
    by reflexivity.
  unfold Sqlite.store. rewrite Hz. simpl.
  split; [reflexivity|]. split; [reflexivity|].
  now rewrite (integerLiteral_FormatInt z (integerLiteral_range _ _ Hz)).
Qed.

Lemma integer_pubDate_witness :
  exists (t' : Sqlite.Table) (r : Sqlite.Row),
    db (insertItem (entry "a" " +0042 ") (tableWorld Sqlite.emptyTable []))
      = Some t' /\
    Sqlite.rows t' = (Sqlite.rows Sqlite.emptyTable ++ [r])%list /\
    Sqlite.pubDate r = Sqlite.VInteger 42 /\
    PubDate (scanRow r) = Strconv.FormatInt 42 /\
    Sqlite.store (Sqlite.columnAffinity "pubDate") (PubDate (scanRow r))
      = Sqlite.VInteger 42.
Proof.
  apply (integer_pubDate_is_normalised_once
           Sqlite.emptyTable [] (entry "a" " +0042 ") 42).
  reflexivity.
Defined.

(** ** Decoding, further *)

Lemma setField_last (it : Item) (nm : Xml.Name) (c : list Xml.Node) :
  (Xml.Local nm = "title" ->
   Title (Xml.setField it (Xml.Element nm c)) = Xml.charData c) /\
  (Xml.Local nm = "description" ->
   Description (Xml.setField it (Xml.Element nm c)) = Xml.charData c) /\
  (Xml.Local nm = "link" ->
   Link (Xml.setField it (Xml.Element nm c)) = Xml.charData c) /\
  (Xml.Local nm = "pubDate" ->
   PubDate (Xml.setField it (Xml.Element nm c)) = Xml.charData c).
Proof.
  unfold Xml.setField. repeat split; intros ->; reflexivity.
Qed.

(** X18: a field of an entry is the character data of the last child
    element of the item with that local name, whatever the namespace of
    the child: a later element with the same local name overwrites an
    earlier one. *)
Theorem last_child_with_the_name_wins :
  forall (before after : list Xml.Node) (nm : Xml.Name) (c : list Xml.Node),
    let e := Xml.unmarshalItem (before ++ Xml.Element nm c :: after) in
    (Xml.Local nm = "title" ->
     existsb (Xml.isElement "title") after = false ->
     Title e = Xml.charData c) /\
    (Xml.Local nm = "description" ->
     existsb (Xml.isElement "description") after = false ->
     Description e = Xml.charData c) /\
    (Xml.Local nm = "link" ->
     existsb (Xml.isElement "link") after = false ->
     Link e = Xml.charData c) /\
    (Xml.Local nm = "pubDate" ->
     existsb (Xml.isElement "pubDate") after = false ->
     PubDate e = Xml.charData c).
Proof.
  intros before after nm c. cbv zeta. unfold Xml.unmarshalItem.
  rewrite fold_left_app. cbn [fold_left].
  set (it := fold_left Xml.setField before zeroItem).
  destruct (XmlFacts.fields_kept after (Xml.setField it (Xml.Element nm c)))
    as [Ht [Hd [Hl Hp]]].
  destruct (setField_last it nm c) as [Lt [Ld [Ll Lp]]].
  repeat split; intros Hn Ha.
  - now rewrite (Ht Ha), (Lt Hn).
  - now rewrite (Hd Ha), (Ld Hn).
  - now rewrite (Hl Ha), (Ll Hn).
  - now rewrite (Hp Ha), (Lp Hn).
Qed.

Lemma last_child_witness :
  Link (Xml.unmarshalItem
          ([textElement "link" "http://example.org/1"]
           ++ Xml.Element {| Xml.Space := "http://www.w3.org/2005/Atom";
                             Xml.Local := "link" |} []
           :: [textElement "title" "one"]))
  = Xml.charData [].
Proof.
  refine (proj1 (proj2 (proj2 (last_child_with_the_name_wins
            [textElement "link" "http://example.org/1"]
            [textElement "title" "one"]
            {| Xml.Space := "http://www.w3.org/2005/Atom";
               Xml.Local := "link" |} []))) _ _); reflexivity.
Defined.

(** X19: a document without a [channel] element under its root, whatever
    the root is called and whatever else it holds, is accepted in silence:
    the fetch sends its request and does nothing more; no line is logged,
    no row written. *)
Theorem document_without_channel_is_silently_empty :
  forall (xmlParse : string -> Result string Xml.Document) (network : Network)
         (url : string) (resp : Response) (body : string) (doc : Xml.Document),
    network url = Ok resp ->
    Body resp = Ok body ->
    xmlParse body = Ok doc ->
    existsb (Xml.isElement "channel") (Xml.RootContent doc) = false ->
    fetchRSS xmlParse network url = [Get url] /\
    forall (t : Sqlite.Table) (tr : list Event),
      run (fetchRSS xmlParse network url) (tableWorld t tr)
      = tableWorld t (tr ++ [EvGet url]).
Proof.
  intros xmlParse network url resp body doc Hn Hb Hp Hnone.
  assert (Hf : fetchRSS xmlParse network url = [Get url]).
  { rewrite (fetchRSS_decoded xmlParse _ _ _ _ _ Hn Hb Hp).
    unfold Xml.itemElements.
    assert (E : filter (Xml.isElement "channel") (Xml.RootContent doc) = []).
    { clear -Hnone. induction (Xml.RootContent doc) as [|n l IH]; simpl in *;
        [reflexivity|].
      apply orb_false_iff in Hnone. destruct Hnone as [H1 H2].
      rewrite H1. auto. }
    now rewrite E. }
  split; [exact Hf|]. intros t tr. rewrite Hf, run_table. reflexivity.
Qed.

Lemma document_without_channel_witness :
  fetchRSS atomParse atomNet goodFeed = [Get goodFeed] /\
  forall (t : Sqlite.Table) (tr : list Event),
    run (fetchRSS atomParse atomNet goodFeed) (tableWorld t tr)
    = tableWorld t (tr ++ [EvGet goodFeed]).
Proof.
  apply (document_without_channel_is_silently_empty atomParse atomNet goodFeed
           {| StatusCode := 200; Body := Ok atomBody |} atomBody atomDoc);
    reflexivity.
Defined.

(** ** Writing without a table *)


